(** * The resource graph of [FinalCloudProjectV2Stack]

    A shallow embedding of [stacks/v2_stack.py].  The stack's constructor is
    one straight pass that declares constructs on the stack and mutates two of
    them afterwards (the role receives a policy statement, the buckets record
    grants).  The embedding keeps that shape: every construct call is an
    action of a small state-and-error monad that appends to the stack's
    declaration trace, and the constructor is the sequence of those actions
    in source order. *)

From stdpp Require Import gmap strings list fin_maps.

(** ** Strings that may carry deploy-time tokens

    [bucket.bucket_name] and [role.role_arn] are not known when the
    constructor runs: the framework hands out a placeholder that is replaced
    when the stack is deployed.  An f-string around such a placeholder is a
    concatenation of literal pieces and placeholders. *)

Inductive token :=
  | BucketName (bucket_id : string)
  | RoleArn (role_id : string).

Inductive frag :=
  | Lit (s : string)
  | Tok (t : token).

Abbreviation tstring := (list frag).

#[global] Instance token_eq_dec : EqDecision token.
Proof. solve_decision. Defined.
#[global] Instance frag_eq_dec : EqDecision frag.
Proof. solve_decision. Defined.

Definition resolve_frag (env : token → string) (f : frag) : string :=
  match f with
  | Lit s => s
  | Tok t => env t
  end.

(** The string a token-bearing string stands for once every token has a
    value. *)
Fixpoint resolve (env : token → string) (t : tstring) : string :=
  match t with
  | [] => ""
  | f :: t' => resolve_frag env f +:+ resolve env t'
  end.

(** ** The constructs the stack uses

    A keyword argument the source does not pass is [None]; a construct's
    attribute of the same name reads that value back. *)

Module iam.

Inductive Effect := ALLOW | DENY.

Inductive Principal :=
  | ServicePrincipal (service : string).

Inductive ManagedPolicy :=
  | from_aws_managed_policy_name (name : string).

Record PolicyStatement := mkPolicyStatement {
  effect : Effect;
  actions : list string;
  resources : list string
}.

Record RoleProps := mkRoleProps {
  assumed_by : Principal;
  managed_policies : list ManagedPolicy
}.

(** The handle [iam.Role(...)] returns. *)
Record Role := mkRole { role_id : string }.

Definition role_arn (r : Role) : tstring := [Tok (RoleArn (role_id r))].

End iam.

Module cdk.
Inductive RemovalPolicy := DESTROY | RETAIN | SNAPSHOT.
End cdk.

Module s3.

Inductive BlockPublicAccess := BLOCK_ALL | BLOCK_ACLS.

Record BucketProps := mkBucketProps {
  versioned : option bool;
  public_read_access : option bool;
  block_public_access : option BlockPublicAccess;
  removal_policy : option cdk.RemovalPolicy;
  auto_delete_objects : option bool
}.

(** The handle [s3.Bucket(...)] returns. *)
Record Bucket := mkBucket { bucket_id : string }.

Definition bucket_name (b : Bucket) : tstring := [Tok (BucketName (bucket_id b))].

(** What a grant method of a bucket gives its grantee. *)
Inductive Access := Read | ReadWrite.

#[global] Instance Access_eq_dec : EqDecision Access.
Proof. solve_decision. Defined.

End s3.

Module s3deploy.

Inductive Source :=
  | asset (path : string).

Record BucketDeploymentProps := mkBucketDeploymentProps {
  sources : list Source;
  destination_bucket : s3.Bucket;
  destination_key_prefix : option string
}.

End s3deploy.

Module glue.

Record CfnWorkflow := mkCfnWorkflow {
  wf_description : option string;
  wf_name : option string
}.

Record JobCommandProperty := mkJobCommandProperty {
  cmd_name : option string;
  python_version : option string;
  script_location : option tstring
}.

Record CfnJob := mkCfnJob {
  job_name : option string;
  command : JobCommandProperty;
  role : tstring;
  glue_version : option string;
  max_capacity : option Z;
  timeout : option Z;
  default_arguments : gmap string tstring
}.

Record ActionProperty := mkActionProperty {
  act_job_name : option string
}.

Record ConditionProperty := mkConditionProperty {
  cond_state : option string;
  logical_operator : option string;
  cond_job_name : option string
}.

Record PredicateProperty := mkPredicateProperty {
  conditions : list ConditionProperty
}.

Record CfnTrigger := mkCfnTrigger {
  trg_name : option string;
  trg_actions : list ActionProperty;
  trg_type : string;
  start_on_creation : option bool;
  schedule : option string;
  workflow_name : option string;
  predicate : option PredicateProperty
}.

End glue.

(** ** The declaration trace *)

Inductive decl :=
  | DRole (id : string) (p : iam.RoleProps)
  | DAddToPolicy (role_id : string) (s : iam.PolicyStatement)
  | DBucket (id : string) (p : s3.BucketProps)
  | DGrant (a : s3.Access) (bucket_id : string) (grantee : string)
  | DBucketDeployment (id : string) (p : s3deploy.BucketDeploymentProps)
  | DWorkflow (id : string) (w : glue.CfnWorkflow)
  | DJob (id : string) (j : glue.CfnJob)
  | DTrigger (id : string) (t : glue.CfnTrigger).

(** The construct id a declaration registers in the stack's scope; the
    two mutations register none.  [DAddToPolicy] is a statement handed to
    [add_to_policy]; [DGrant] is the Allow statement a bucket grant writes
    into the grantee's default policy, the same policy [add_to_policy]
    writes to.  The framework picks that statement's action list from the
    access level, so the trace keeps the level and the bucket. *)
Definition decl_id (d : decl) : option string :=
  match d with
  | DRole id _ | DBucket id _ | DBucketDeployment id _
  | DWorkflow id _ | DJob id _ | DTrigger id _ => Some id
  | DAddToPolicy _ _ | DGrant _ _ _ => None
  end.

Record Stack := mkStack {
  stack_id : string;
  decls : list decl
}.

Inductive error :=
  | DuplicateConstruct (id : string).

(** State passing with failure: a scope refuses a second construct with an
    id it already holds. *)
Definition M (A : Type) : Type := Stack → error + (A * Stack).

#[global] Instance M_ret : MRet M := λ A a st, inr (a, st).
#[global] Instance M_bind : MBind M := λ A B f m st,
  match m st with
  | inl e => inl e
  | inr (a, st') => f a st'
  end.

Definition ids (st : Stack) : list string := omap decl_id (decls st).

Definition emit (d : decl) : M unit := λ st,
  inr (tt, mkStack (stack_id st) (decls st ++ [d])).

Definition declare (id : string) (d : decl) : M unit := λ st,
  if decide (id ∈ ids st) then inl (DuplicateConstruct id)
  else emit d st.

Module Construct.

Definition Role (id : string) (p : iam.RoleProps) : M iam.Role :=
  declare id (DRole id p) ;; mret (iam.mkRole id).

Definition add_to_policy (r : iam.Role) (s : iam.PolicyStatement) : M unit :=
  emit (DAddToPolicy (iam.role_id r) s).

Definition Bucket (id : string) (p : s3.BucketProps) : M s3.Bucket :=
  declare id (DBucket id p) ;; mret (s3.mkBucket id).

(** A grant to a role of the stack writes an Allow statement for the bucket
    into that role's default policy; [default_policy] reads it back. *)
Definition grant_read_write (b : s3.Bucket) (r : iam.Role) : M unit :=
  emit (DGrant s3.ReadWrite (s3.bucket_id b) (iam.role_id r)).

Definition grant_read (b : s3.Bucket) (r : iam.Role) : M unit :=
  emit (DGrant s3.Read (s3.bucket_id b) (iam.role_id r)).

Definition BucketDeployment (id : string) (p : s3deploy.BucketDeploymentProps) : M unit :=
  declare id (DBucketDeployment id p).

Definition CfnWorkflow (id : string) (w : glue.CfnWorkflow) : M glue.CfnWorkflow :=
  declare id (DWorkflow id w) ;; mret w.

Definition CfnJob (id : string) (j : glue.CfnJob) : M glue.CfnJob :=
  declare id (DJob id j) ;; mret j.

Definition CfnTrigger (id : string) (t : glue.CfnTrigger) : M glue.CfnTrigger :=
  declare id (DTrigger id t) ;; mret t.

End Construct.

(** ** The stack *)

Module FinalCloudProjectV2Stack.

Import iam cdk s3 s3deploy glue.

(** The body of the constructor, after [super().__init__] has made the
    empty stack. *)
Definition __init__ : M unit :=
  (* Glue IAM role for accessing data bucket *)
  glue_role ← Construct.Role "my_glue_role"
    {| assumed_by := ServicePrincipal "glue.amazonaws.com";
       managed_policies :=
         [from_aws_managed_policy_name "service-role/AWSGlueServiceRole"] |};
  (* Secrets manager access policy, for retrieving the Ticketmaster API key *)
  let secrets_manager_policy :=
    {| effect := ALLOW;
       actions := ["secretsmanager:GetSecretValue"];
       resources := ["arn:aws:secretsmanager:us-west-2:943686807189:secret:finalproject/daniel/ticketmaster-Gu2UO4"] |} in
  Construct.add_to_policy glue_role secrets_manager_policy ;;
  (* Bucket for data storage *)
  data_bucket ← Construct.Bucket "final_data"
    {| versioned := Some true;
       public_read_access := Some true;
       block_public_access := None;
       removal_policy := Some DESTROY;
       auto_delete_objects := Some true |};
  (* Bucket for housing scripts inside assets *)
  scripts_bucket ← Construct.Bucket "glue_scripts"
    {| versioned := Some true;
       public_read_access := None;
       block_public_access := Some BLOCK_ALL;
       removal_policy := Some DESTROY;
       auto_delete_objects := Some true |};
  (* Attach Glue IAM role to each of the buckets *)
  Construct.grant_read_write data_bucket glue_role ;;
  Construct.grant_read scripts_bucket glue_role ;;
  (* Dump assets scripts into glue script bucket *)
  Construct.BucketDeployment "deploy_assets"
    {| sources := [asset "./assets/"];
       destination_bucket := scripts_bucket;
       destination_key_prefix := Some "assets/" |} ;;
  (* Initialize glue workflow *)
  my_workflow ← Construct.CfnWorkflow "ticketmaster_workflow"
    {| wf_description := Some "Workflow for processing Ticketmaster data to parquet";
       wf_name := None |};
  (* Job to download data from ticketmaster *)
  ticketmaster_download_job ← Construct.CfnJob "download_ticketmaster_data"
    {| job_name := Some "download_ticketmaster_data";
       command :=
         {| cmd_name := Some "pythonshell";
            python_version := Some "3.9";
            script_location :=
              Some ([Lit "s3://"] ++ bucket_name scripts_bucket
                    ++ [Lit "/assets/ticketmaster_to_parquet.py"]) |};
       role := role_arn glue_role;
       glue_version := Some "3.0";
       max_capacity := Some 1%Z;
       timeout := Some 3%Z;
       default_arguments := {[ "--my_bucket" := bucket_name data_bucket ]} |};
  (* Second job: merge the fragments into one parquet *)
  fragments_to_parquet_job ← Construct.CfnJob "fragments_to_parquet_job"
    {| job_name := Some "fragments_to_parquet_job";
       command :=
         {| cmd_name := Some "pythonshell";
            python_version := Some "3.9";
            script_location :=
              Some ([Lit "s3://"] ++ bucket_name scripts_bucket
                    ++ [Lit "/assets/merge_parquet_final.py"]) |};
       role := role_arn glue_role;
       glue_version := Some "3.0";
       max_capacity := Some 1%Z;
       timeout := Some 3%Z;
       default_arguments := {[ "--my_bucket" := bucket_name data_bucket ]} |};
  (* Third job that takes combined data *)
  parquet_analysis_job ← Construct.CfnJob "parquet_analysis_job"
    {| job_name := Some "parquet_analysis_job";
       command :=
         {| cmd_name := Some "pythonshell";
            python_version := Some "3.9";
            script_location :=
              Some ([Lit "s3://"] ++ bucket_name scripts_bucket
                    ++ [Lit "/assets/V2TicketMasterAnalysis_Final.py"]) |};
       role := role_arn glue_role;
       glue_version := Some "3.0";
       max_capacity := Some 1%Z;
       timeout := Some 3%Z;
       default_arguments :=
         <[ "--additional-python-modules" :=
              [Lit "dython==0.7.5,matplotlib==3.8.3,folium==0.16.0"] ]>
           {[ "--my_bucket" := bucket_name data_bucket ]} |};
  (* Trigger for first job, daily *)
  job_1_trigger ← Construct.CfnTrigger "initial_trigger"
    {| trg_name := Some "initial_trigger";
       trg_actions := [ {| act_job_name := job_name ticketmaster_download_job |} ];
       trg_type := "SCHEDULED";
       start_on_creation := Some true;
       schedule := Some "cron(0 11 * * ? *)";
       workflow_name := wf_name my_workflow;
       predicate := None |};
  (* Trigger for second job, after first job completes *)
  job_2_trigger ← Construct.CfnTrigger "frag_trigger"
    {| trg_name := Some "frag_trigger";
       trg_actions := [ {| act_job_name := job_name fragments_to_parquet_job |} ];
       trg_type := "CONDITIONAL";
       start_on_creation := Some true;
       schedule := None;
       workflow_name := wf_name my_workflow;
       predicate := Some
         {| conditions :=
              [ {| cond_state := Some "SUCCEEDED";
                   logical_operator := Some "EQUALS";
                   cond_job_name := job_name ticketmaster_download_job |} ] |} |};
  (* Trigger for third job, when second job completes *)
  job_3_trigger ← Construct.CfnTrigger "analysis_trigger"
    {| trg_name := Some "analysis_trigger";
       trg_actions := [ {| act_job_name := job_name parquet_analysis_job |} ];
       trg_type := "CONDITIONAL";
       start_on_creation := Some true;
       schedule := None;
       workflow_name := wf_name my_workflow;
       predicate := Some
         {| conditions :=
              [ {| cond_state := Some "SUCCEEDED";
                   logical_operator := Some "EQUALS";
                   cond_job_name := job_name fragments_to_parquet_job |} ] |} |};
  mret tt.

(** [FinalCloudProjectV2Stack(scope, construct_id)]: the stack the
    constructor's body leaves behind, or the error it raises, once
    [super().__init__] has accepted the construct id.  The checks that call
    makes on the id and on the parent scope belong to the framework and are
    not modelled: [construct_id] stands for an id it accepts. *)
Definition new (construct_id : string) : error + Stack :=
  match __init__ (mkStack construct_id []) with
  | inl e => inl e
  | inr (_, st) => inr st
  end.

End FinalCloudProjectV2Stack.

(** ** Reading the declared graph *)

Section views.

Context {A : Type} (pick : decl → option A).

(** The declarations of one kind, in declaration order. *)
Definition declared (st : Stack) : list A := omap pick (decls st).

End views.

Definition as_role (d : decl) :=
  match d with DRole id p => Some (id, p) | _ => None end.
Definition as_statement (d : decl) :=
  match d with DAddToPolicy r s => Some (r, s) | _ => None end.
Definition as_bucket (d : decl) :=
  match d with DBucket id p => Some (id, p) | _ => None end.
Definition as_grant (d : decl) :=
  match d with DGrant a b r => Some (a, b, r) | _ => None end.
Definition as_deployment (d : decl) :=
  match d with DBucketDeployment id p => Some (id, p) | _ => None end.
Definition as_workflow (d : decl) :=
  match d with DWorkflow id w => Some (id, w) | _ => None end.
Definition as_job (d : decl) :=
  match d with DJob id j => Some (id, j) | _ => None end.
Definition as_trigger (d : decl) :=
  match d with DTrigger id t => Some (id, t) | _ => None end.

Definition roles := declared as_role.
Definition statements := declared as_statement.
Definition buckets := declared as_bucket.
Definition grants := declared as_grant.
Definition deployments := declared as_deployment.
Definition workflows := declared as_workflow.
Definition jobs := declared as_job.
Definition triggers := declared as_trigger.

(** The statements [add_to_policy] has put on one role. *)
Definition policy_of (st : Stack) (role_id : string) : list iam.PolicyStatement :=
  snd <$> filter (λ rs, rs.1 = role_id) (statements st).

(** The triggers that start the job of a given name. *)
Definition starts (job : string) (t : glue.CfnTrigger) : bool :=
  bool_decide (Some job ∈ glue.act_job_name <$> glue.trg_actions t).

Definition triggers_of (st : Stack) (job : string) : list glue.CfnTrigger :=
  filter (λ t, starts job t = true) (snd <$> triggers st).

(** The upstream conditions of a trigger; a trigger without a predicate
    has none. *)
Definition conditions_of (t : glue.CfnTrigger) : list glue.ConditionProperty :=
  match glue.predicate t with
  | Some p => glue.conditions p
  | None => []
  end.

(** The one condition shape the stack uses: [job] has reached [state]. *)
Definition when_job (job state : string) : glue.ConditionProperty :=
  {| glue.cond_state := Some state;
     glue.logical_operator := Some "EQUALS";
     glue.cond_job_name := Some job |}.

(** A trigger belongs to a workflow when it carries that workflow's name. *)
Definition attached_to (w : glue.CfnWorkflow) (t : glue.CfnTrigger) : bool :=
  match glue.workflow_name t, glue.wf_name w with
  | Some n, Some m => bool_decide (n = m)
  | _, _ => false
  end.

(** The runtime settings of a job, leaving out script and arguments. *)
Record runtime := mkRuntime {
  rt_command : option string;
  rt_python : option string;
  rt_glue : option string;
  rt_capacity : option Z;
  rt_timeout : option Z;
  rt_role : tstring
}.

Definition runtime_of (j : glue.CfnJob) : runtime :=
  {| rt_command := glue.cmd_name (glue.command j);
     rt_python := glue.python_version (glue.command j);
     rt_glue := glue.glue_version j;
     rt_capacity := glue.max_capacity j;
     rt_timeout := glue.timeout j;
     rt_role := glue.role j |}.

(** The location of an uploaded script: bucket, key prefix, file. *)
Definition script_uri (b : s3.Bucket) (prefix file : string) : tstring :=
  [Lit "s3://"] ++ s3.bucket_name b ++ [Lit ("/" +:+ prefix +:+ file)].

(** [first_before p q l]: walking [l] in order, a declaration satisfying [p]
    is met before any declaration satisfying [q]. *)
Fixpoint first_before (p q : decl → bool) (l : list decl) : bool :=
  match l with
  | [] => false
  | d :: l' => p d || (negb (q d) && first_before p q l')
  end.

Definition is_grant (a : s3.Access) (bucket_id grantee : string) (d : decl) : bool :=
  match d with
  | DGrant a' b r =>
      bool_decide (a' = a) && bool_decide (b = bucket_id) && bool_decide (r = grantee)
  | _ => false
  end.

(** A job that runs under the given role. *)
Definition is_job_of (r : iam.Role) (d : decl) : bool :=
  match d with
  | DJob _ j => bool_decide (glue.role j = iam.role_arn r)
  | _ => false
  end.

(** What the constructor leaves behind, for any construct id of the stack. *)
Definition declares (construct_id : string) (P : Stack → Prop) : Prop :=
  ∃ st, FinalCloudProjectV2Stack.new construct_id = inr st ∧ P st.


(** ** Cross-references *)

(** The names under which jobs are declared. *)
Definition job_names_of (st : Stack) : list string :=
  omap (glue.job_name ∘ snd) (jobs st).

(** The job names a trigger mentions: the jobs it starts and the jobs it
    waits for. *)
Definition started_by (t : glue.CfnTrigger) : list (option string) :=
  glue.act_job_name <$> glue.trg_actions t.

Definition awaited_by (t : glue.CfnTrigger) : list (option string) :=
  glue.cond_job_name <$> conditions_of t.

(** The role a job's [role] argument points at, when it is a role's ARN. *)
Definition role_of (t : tstring) : option string :=
  match t with
  | [Tok (RoleArn r)] => Some r
  | _ => None
  end.

(** The bucket an argument value points at, when it is a bucket's name. *)
Definition bucket_of (t : tstring) : option string :=
  match t with
  | [Tok (BucketName b)] => Some b
  | _ => None
  end.

(** The bucket of an s3:// location. *)
Definition uri_bucket (t : tstring) : option string :=
  match t with
  | Lit scheme :: Tok (BucketName b) :: _ =>
      if decide (scheme = "s3://") then Some b else None
  | _ => None
  end.

Definition script_bucket (j : glue.CfnJob) : option string :=
  glue.script_location (glue.command j) ≫= uri_bucket.

Definition target_bucket (j : glue.CfnJob) : option string :=
  glue.default_arguments j !! "--my_bucket" ≫= bucket_of.

(** What the grants recorded on the stack allow a role to do on a bucket. *)
Definition granted (st : Stack) (a : s3.Access) (bucket_id role_id : string) : bool :=
  bool_decide ((a, bucket_id, role_id) ∈ grants st).

Definition may_read (st : Stack) (bucket_id role_id : string) : bool :=
  granted st s3.Read bucket_id role_id || granted st s3.ReadWrite bucket_id role_id.

Definition may_write (st : Stack) (bucket_id role_id : string) : bool :=
  granted st s3.ReadWrite bucket_id role_id.

(** ** Following the chain *)

#[global] Instance ConditionProperty_eq_dec : EqDecision glue.ConditionProperty.
Proof. solve_decision. Defined.

(** The jobs started once [job] has succeeded. *)
Definition next_jobs (st : Stack) (job : string) : list string :=
  t ← snd <$> triggers st;
  if bool_decide (when_job job "SUCCEEDED" ∈ conditions_of t)
  then omap id (started_by t)
  else [].

(** The jobs started by a schedule alone. *)
Definition scheduled_jobs (st : Stack) : list string :=
  t ← snd <$> triggers st;
  if bool_decide (glue.trg_type t = "SCHEDULED") then omap id (started_by t) else [].

(** The order in which jobs run from [job] on when every job succeeds,
    followed for at most [fuel] steps. *)
Fixpoint run_from (st : Stack) (fuel : nat) (job : string) : list string :=
  match fuel with
  | 0 => []
  | S fuel' => job :: (next_jobs st job ≫= run_from st fuel')
  end.

(** ** The role's default policy *)

(** One statement of a role's default policy: a statement handed to
    [add_to_policy], or the Allow statement a bucket grant has written for
    the role. *)
Inductive policy_entry :=
  | Explicit (s : iam.PolicyStatement)
  | BucketAccess (a : s3.Access) (bucket_id : string).

Definition as_policy_entry (role_id : string) (d : decl) : option policy_entry :=
  match d with
  | DAddToPolicy r s => if decide (r = role_id) then Some (Explicit s) else None
  | DGrant a b r => if decide (r = role_id) then Some (BucketAccess a b) else None
  | _ => None
  end.

(** Everything the role is allowed beyond its managed policies, in the
    order it was added. *)
Definition default_policy (st : Stack) (role_id : string) : list policy_entry :=
  omap (as_policy_entry role_id) (decls st).

(** ** The provisioning document

    Synthesis renders every declared construct into resources.  A [Cfn]
    construct is one resource.  A role is a role resource, and a policy
    resource once its default policy holds a statement.  A bucket is a
    bucket resource, a bucket policy once public read or automatic deletion
    asks for one, and a custom resource that empties it on deletion.  An
    asset upload is a layer and a custom resource.  Automatic deletion and
    the asset upload each add, once per stack, a provider made of a function
    and a role of its own (the upload's role has a policy too). *)

Inductive resource_type :=
  | IAM_Role | IAM_Policy
  | S3_Bucket | S3_BucketPolicy
  | Custom_S3AutoDeleteObjects | Custom_CDKBucketDeployment
  | Lambda_Function | Lambda_LayerVersion
  | Glue_Workflow | Glue_Job | Glue_Trigger.

#[global] Instance resource_type_eq_dec : EqDecision resource_type.
Proof. solve_decision. Defined.

(** Where a resource comes from: a construct the stack declares, or one of
    the two providers the framework adds. *)
Inductive origin :=
  | Of (construct_id : string)
  | AutoDeleteObjectsProvider
  | BucketDeploymentHandler.

Record resource := mkResource {
  res_type : resource_type;
  res_origin : origin
}.

Definition auto_deletes (p : s3.BucketProps) : bool :=
  bool_decide (s3.auto_delete_objects p = Some true).

Definition has_bucket_policy (p : s3.BucketProps) : bool :=
  bool_decide (s3.public_read_access p = Some true) || auto_deletes p.

Definition has_default_policy (st : Stack) (role_id : string) : bool :=
  match default_policy st role_id with
  | [] => false
  | _ :: _ => true
  end.

Definition render (st : Stack) (d : decl) : list resource :=
  match d with
  | DRole id _ =>
      mkResource IAM_Role (Of id) ::
      (if has_default_policy st id then [mkResource IAM_Policy (Of id)] else [])
  | DAddToPolicy _ _ | DGrant _ _ _ => []
  | DBucket id p =>
      mkResource S3_Bucket (Of id) ::
      (if has_bucket_policy p then [mkResource S3_BucketPolicy (Of id)] else []) ++
      (if auto_deletes p then [mkResource Custom_S3AutoDeleteObjects (Of id)] else [])
  | DBucketDeployment id _ =>
      [mkResource Lambda_LayerVersion (Of id);
       mkResource Custom_CDKBucketDeployment (Of id)]
  | DWorkflow id _ => [mkResource Glue_Workflow (Of id)]
  | DJob id _ => [mkResource Glue_Job (Of id)]
  | DTrigger id _ => [mkResource Glue_Trigger (Of id)]
  end.

Definition providers (st : Stack) : list resource :=
  (if existsb (auto_deletes ∘ snd) (buckets st)
   then [mkResource IAM_Role AutoDeleteObjectsProvider;
         mkResource Lambda_Function AutoDeleteObjectsProvider]
   else []) ++
  (match deployments st with
   | [] => []
   | _ :: _ => [mkResource IAM_Role BucketDeploymentHandler;
                mkResource IAM_Policy BucketDeploymentHandler;
                mkResource Lambda_Function BucketDeploymentHandler]
   end).

Definition synth (st : Stack) : list resource :=
  (decls st ≫= render st) ++ providers st.

(** The resources of one type in a document. *)
Definition of_type (ty : resource_type) (doc : list resource) : list resource :=
  filter (λ r, res_type r = ty) doc.

(** * Properties *)

(** ** The declaration monad *)

Lemma emit_inv d st u st' :
  emit d st = inr (u, st') →
  stack_id st' = stack_id st ∧ decls st' = decls st ++ [d].
Proof. unfold emit. intros [= <- <-]. done. Qed.

Lemma declare_inv id d st u st' :
  declare id d st = inr (u, st') →
  (id ∉ ids st) ∧ stack_id st' = stack_id st ∧ decls st' = decls st ++ [d].
Proof.
  unfold declare. case_decide as Hid; [done|].
  intros Hrec. split; [done|]. by eapply emit_inv.
Qed.

Lemma declare_duplicate id d st :
  id ∈ ids st → declare id d st = inl (DuplicateConstruct id).
Proof. intros Hid. unfold declare. by case_decide. Qed.

(** Construct ids stay unique within the stack's scope. *)
Lemma declare_NoDup id d st u st' :
  decl_id d = Some id →
  NoDup (ids st) →
  declare id d st = inr (u, st') →
  NoDup (ids st').
Proof.
  intros Hd Hnd (Hfresh & _ & Hdecls)%declare_inv.
  unfold ids in *. rewrite Hdecls, omap_app. simpl. rewrite Hd. simpl.
  apply NoDup_app. split; [done|]. split; [|apply NoDup_singleton].
  intros x Hx ->%list_elem_of_singleton. done.
Qed.

Lemma emit_ids d st u st' :
  decl_id d = None →
  emit d st = inr (u, st') →
  ids st' = ids st.
Proof.
  intros Hd (_ & Hdecls)%emit_inv.
  unfold ids. rewrite Hdecls, omap_app. simpl. rewrite Hd. simpl.
  apply app_nil_r.
Qed.

(** ** Declaration order *)

Lemma first_before_spec p q l :
  first_before p q l = true ↔
  ∃ l1 d l2, l = l1 ++ d :: l2 ∧ p d = true ∧ Forall (λ x, q x = false) l1.
Proof.
  induction l as [|x l IH]; simpl.
  - split; [done|]. intros (l1 & d & l2 & Heq & _). by destruct l1.
  - rewrite orb_true_iff, andb_true_iff, negb_true_iff, IH. split.
    + intros [Hp | [Hq (l1 & d & l2 & -> & Hp & Hl1)]].
      * exists [], x, l. auto.
      * exists (x :: l1), d, l2. auto.
    + intros (l1 & d & l2 & Heq & Hp & Hl1).
      destruct l1 as [|y l1]; simplify_eq/=; [by left|].
      right. inversion_clear Hl1. split; [done|]. by exists l1, d, l2.
Qed.

(** ** Script locations *)

Lemma append_assoc (s1 s2 s3 : string) :
  (s1 +:+ s2) +:+ s3 = s1 +:+ s2 +:+ s3.
Proof.
  induction s1 as [|a s1 IH]; [done|].
  change (String a ((s1 +:+ s2) +:+ s3) = String a (s1 +:+ s2 +:+ s3)).
  by rewrite IH.
Qed.

Lemma append_nil_r (s : string) : s +:+ "" = s.
Proof.
  induction s as [|a s IH]; [done|].
  change (String a (s +:+ "") = String a s). by rewrite IH.
Qed.

#[global] Instance script_uri_inj b prefix : Inj (=) (=) (script_uri b prefix).
Proof.
  intros f1 f2 Heq. unfold script_uri in Heq. simplify_list_eq.
  by repeat match goal with H : _ +:+ _ = _ +:+ _ |- _ => apply String.app_inj in H end.
Qed.

Lemma resolve_app env t1 t2 :
  resolve env (t1 ++ t2) = resolve env t1 +:+ resolve env t2.
Proof.
  induction t1 as [|f t1 IH]; simpl; [done|].
  by rewrite IH, append_assoc.
Qed.

Lemma resolve_script_uri env b prefix file :
  resolve env (script_uri b prefix file) =
  "s3://" +:+ env (BucketName (s3.bucket_id b)) +:+ "/" +:+ prefix +:+ file.
Proof.
  unfold script_uri, s3.bucket_name. simpl.
  by rewrite append_nil_r.
Qed.

(** However the bucket name resolves, two scripts under one bucket and
    prefix are the same object only if they are the same file. *)
#[global] Instance resolve_script_uri_inj env b prefix :
  Inj (=) (=) (λ file, resolve env (script_uri b prefix file)).
Proof.
  intros f1 f2. rewrite !resolve_script_uri. intros H.
  repeat apply String.app_inj in H. done.
Qed.

Lemma script_uris_NoDup env b prefix files :
  NoDup files →
  NoDup ((λ file, resolve env (script_uri b prefix file)) <$> files).
Proof. apply (NoDup_fmap_2 _). Qed.

(** ** The declared graph *)

Ltac run_constructor :=
  intros; eexists; split; [vm_compute; reflexivity|].

(** The constructor raises nothing: its construct ids are pairwise
    distinct, and the stack keeps the id it was given. *)
Lemma constructor_succeeds construct_id :
  declares construct_id (λ st,
    stack_id st = construct_id ∧
    ids st = ["my_glue_role"; "final_data"; "glue_scripts"; "deploy_assets";
              "ticketmaster_workflow"; "download_ticketmaster_data";
              "fragments_to_parquet_job"; "parquet_analysis_job";
              "initial_trigger"; "frag_trigger"; "analysis_trigger"]).
Proof. run_constructor. split; reflexivity. Qed.

(** The three jobs carry the names the triggers refer to. *)
Lemma job_names construct_id :
  declares construct_id (λ st,
    (glue.job_name ∘ snd) <$> jobs st =
      [Some "download_ticketmaster_data";
       Some "fragments_to_parquet_job";
       Some "parquet_analysis_job"]).
Proof. run_constructor. reflexivity. Qed.

(** C1: the trigger chain is strictly linear and success-gated.  The stack
    has exactly three triggers, one per job, and each starts that one job
    and nothing else.  The trigger of job 1 has no condition; the trigger of
    job 2 has exactly one condition, job 1 EQUALS SUCCEEDED; the trigger of
    job 3 has exactly one condition, job 2 EQUALS SUCCEEDED.  No trigger has
    more than one condition, and every condition of every trigger tests for
    SUCCEEDED with EQUALS, so there is no failure path; nothing is started
    by the success of job 3. *)
Theorem trigger_chain_linear_success_gated construct_id :
  declares construct_id (λ st,
    (∃ t1 t2 t3,
       (snd <$> triggers st) = [t1; t2; t3] ∧
       started_by t1 = [Some "download_ticketmaster_data"] ∧
       conditions_of t1 = [] ∧
       started_by t2 = [Some "fragments_to_parquet_job"] ∧
       conditions_of t2 = [when_job "download_ticketmaster_data" "SUCCEEDED"] ∧
       started_by t3 = [Some "parquet_analysis_job"] ∧
       conditions_of t3 = [when_job "fragments_to_parquet_job" "SUCCEEDED"]) ∧
    (∃ t2, triggers_of st "fragments_to_parquet_job" = [t2] ∧
           conditions_of t2 = [when_job "download_ticketmaster_data" "SUCCEEDED"]) ∧
    (∃ t3, triggers_of st "parquet_analysis_job" = [t3] ∧
           conditions_of t3 = [when_job "fragments_to_parquet_job" "SUCCEEDED"]) ∧
    Forall (λ t, length (conditions_of t.2) ≤ 1) (triggers st) ∧
    Forall (λ t, Forall (λ c, glue.cond_state c = Some "SUCCEEDED" ∧
                              glue.logical_operator c = Some "EQUALS")
                        (conditions_of t.2))
           (triggers st) ∧
    Forall (λ t, length (glue.trg_actions t.2) = 1) (triggers st) ∧
    next_jobs st "download_ticketmaster_data" = ["fragments_to_parquet_job"] ∧
    next_jobs st "fragments_to_parquet_job" = ["parquet_analysis_job"] ∧
    next_jobs st "parquet_analysis_job" = []).
Proof.
  run_constructor. split; [|split; [|split; [|split; [|split; [|split]]]]].
  - eexists _, _, _. split; [reflexivity|]. repeat split.
  - eexists. split; reflexivity.
  - eexists. split; reflexivity.
  - repeat constructor.
  - repeat constructor.
  - repeat constructor.
  - repeat split.
Qed.

(** C2, as the code has it: beyond its managed policy, the role's default
    policy holds three statements.  Exactly one was put there by
    [add_to_policy]: it allows exactly the action
    secretsmanager:GetSecretValue on exactly the one secret ARN.  The other
    two are the statements the bucket grants write: read-write on the data
    bucket and read on the scripts bucket. *)
Theorem role_policy_secret_read_and_grants construct_id :
  declares construct_id (λ st,
    let secret_read :=
      {| iam.effect := iam.ALLOW;
         iam.actions := ["secretsmanager:GetSecretValue"];
         iam.resources := ["arn:aws:secretsmanager:us-west-2:943686807189:secret:finalproject/daniel/ticketmaster-Gu2UO4"] |} in
    roles st =
      [("my_glue_role",
        {| iam.assumed_by := iam.ServicePrincipal "glue.amazonaws.com";
           iam.managed_policies :=
             [iam.from_aws_managed_policy_name "service-role/AWSGlueServiceRole"] |})] ∧
    default_policy st "my_glue_role" =
      [Explicit secret_read;
       BucketAccess s3.ReadWrite "final_data";
       BucketAccess s3.Read "glue_scripts"] ∧
    policy_of st "my_glue_role" = [secret_read] ∧
    statements st = [("my_glue_role", secret_read)]).
Proof. run_constructor. cbv zeta. repeat split. Qed.

(** The role's default policy is not a single statement: the claim of
    exactly one added statement fails on the stack. *)
Lemma role_policy_not_one_statement :
  ¬ declares "FinalCloudProjectV2Stack" (λ st,
      ∃ s, default_policy st "my_glue_role" = [s]).
Proof.
  intros (st & Hnew & s & Hpolicy).
  vm_compute in Hnew. injection Hnew as <-.
  vm_compute in Hpolicy. discriminate Hpolicy.
Qed.

(** C3: the data bucket has public read access switched on, the scripts
    bucket blocks all public access (and does not switch public read on),
    and both are versioned. *)
Theorem bucket_public_access construct_id :
  declares construct_id (λ st,
    ∃ data scripts,
      buckets st = [("final_data", data); ("glue_scripts", scripts)] ∧
      s3.public_read_access data = Some true ∧
      s3.block_public_access scripts = Some s3.BLOCK_ALL ∧
      s3.public_read_access scripts = None ∧
      s3.versioned data = Some true ∧
      s3.versioned scripts = Some true).
Proof. run_constructor. do 2 eexists. repeat split. Qed.

(** C4, as the code has it: the constructor declares exactly 2 buckets,
    1 role, 3 jobs, 3 triggers and 1 workflow, and the synthesized document
    holds exactly 2 bucket resources, 3 job resources, 3 trigger resources
    and 1 workflow resource, but 3 role resources: the declared role, and
    one role each for the provider behind automatic deletion and for the
    handler of the asset upload. *)
Theorem synthesized_resource_counts construct_id :
  declares construct_id (λ st,
    length (buckets st) = 2 ∧
    length (roles st) = 1 ∧
    length (jobs st) = 3 ∧
    length (triggers st) = 3 ∧
    length (workflows st) = 1 ∧
    length (of_type S3_Bucket (synth st)) = 2 ∧
    length (of_type Glue_Job (synth st)) = 3 ∧
    length (of_type Glue_Trigger (synth st)) = 3 ∧
    length (of_type Glue_Workflow (synth st)) = 1 ∧
    res_origin <$> of_type IAM_Role (synth st) =
      [Of "my_glue_role"; AutoDeleteObjectsProvider; BucketDeploymentHandler]).
Proof. run_constructor. repeat split. Qed.

(** The synthesized document does not hold the resource counts of the
    claim: it has three role resources, not one. *)
Lemma synthesized_counts_not_as_claimed :
  ¬ declares "FinalCloudProjectV2Stack" (λ st,
      length (of_type S3_Bucket (synth st)) = 2 ∧
      length (of_type IAM_Role (synth st)) = 1 ∧
      length (of_type Glue_Job (synth st)) = 3 ∧
      length (of_type Glue_Trigger (synth st)) = 3 ∧
      length (of_type Glue_Workflow (synth st)) = 1).
Proof.
  intros (st & Hnew & _ & Hroles & _).
  vm_compute in Hnew. injection Hnew as <-.
  vm_compute in Hroles. discriminate Hroles.
Qed.

(** C5: the trigger of job 1 is SCHEDULED and its schedule is the literal
    cron expression of the source (minute 0, hour 11, every day); the
    triggers of jobs 2 and 3 are CONDITIONAL and have no schedule. *)
Theorem trigger_types_and_schedule construct_id :
  declares construct_id (λ st,
    (∃ t1, triggers_of st "download_ticketmaster_data" = [t1] ∧
           glue.trg_type t1 = "SCHEDULED" ∧
           glue.schedule t1 = Some "cron(0 11 * * ? *)") ∧
    (∃ t2, triggers_of st "fragments_to_parquet_job" = [t2] ∧
           glue.trg_type t2 = "CONDITIONAL" ∧
           glue.schedule t2 = None) ∧
    (∃ t3, triggers_of st "parquet_analysis_job" = [t3] ∧
           glue.trg_type t3 = "CONDITIONAL" ∧
           glue.schedule t3 = None)).
Proof.
  run_constructor.
  repeat split; eexists; (split; [reflexivity|]); split; reflexivity.
Qed.

(** C6: exactly three jobs are declared; their scripts are three pairwise
    distinct files, each located at s3://<scripts bucket>/assets/<file>.py,
    in the bucket the asset upload writes to and under the key prefix it
    writes to; the three locations stay distinct however the bucket name
    resolves at deploy time. *)
Theorem job_scripts_under_upload_prefix construct_id :
  declares construct_id (λ st,
    ∃ b prefix files,
      (snd <$> deployments st) =
        [ {| s3deploy.sources := [s3deploy.asset "./assets/"];
             s3deploy.destination_bucket := b;
             s3deploy.destination_key_prefix := Some prefix |} ] ∧
      b = s3.mkBucket "glue_scripts" ∧
      prefix = "assets/" ∧
      files = ["ticketmaster_to_parquet.py"; "merge_parquet_final.py";
               "V2TicketMasterAnalysis_Final.py"] ∧
      NoDup files ∧
      (glue.script_location ∘ glue.command ∘ snd) <$> jobs st =
        (Some ∘ script_uri b prefix) <$> files ∧
      NoDup (script_uri b prefix <$> files) ∧
      ∀ env, NoDup ((λ file, resolve env (script_uri b prefix file)) <$> files)).
Proof.
  run_constructor.
  assert (NoDup ["ticketmaster_to_parquet.py"; "merge_parquet_final.py";
                 "V2TicketMasterAnalysis_Final.py"]) as Hfiles.
  { compute_done. }
  eexists _, _, _. repeat split; try reflexivity; try done.
  - by apply (NoDup_fmap_2 _).
  - intros env. by apply script_uris_NoDup.
Qed.

(** C7: every job's default arguments map --my_bucket to the data bucket's
    name; job 3 also maps --additional-python-modules to the three pinned
    versions, a key the maps of jobs 1 and 2 do not hold. *)
Theorem job_default_arguments construct_id :
  declares construct_id (λ st,
    Forall (λ j, glue.default_arguments j.2 !! "--my_bucket" =
                 Some (s3.bucket_name (s3.mkBucket "final_data")))
           (jobs st) ∧
    ∃ j1 j2 j3,
      jobs st = [("download_ticketmaster_data", j1);
                 ("fragments_to_parquet_job", j2);
                 ("parquet_analysis_job", j3)] ∧
      glue.default_arguments j3 !! "--additional-python-modules" =
        Some [Lit "dython==0.7.5,matplotlib==3.8.3,folium==0.16.0"] ∧
      glue.default_arguments j1 !! "--additional-python-modules" = None ∧
      glue.default_arguments j2 !! "--additional-python-modules" = None ∧
      size (glue.default_arguments j1) = 1 ∧
      size (glue.default_arguments j2) = 1 ∧
      size (glue.default_arguments j3) = 2).
Proof.
  run_constructor. split.
  - repeat constructor.
  - eexists _, _, _. split; [reflexivity|]. repeat split.
Qed.

(** C8: the role is granted read-write on the data bucket and read (and
    nothing more) on the scripts bucket, and each of the two grants is
    declared before the first job that runs under the role; all three jobs
    run under it. *)
Theorem grants_precede_jobs construct_id :
  declares construct_id (λ st,
    let glue_role := iam.mkRole "my_glue_role" in
    grants st = [(s3.ReadWrite, "final_data", "my_glue_role");
                 (s3.Read, "glue_scripts", "my_glue_role")] ∧
    first_before (is_grant s3.ReadWrite "final_data" "my_glue_role")
                 (is_job_of glue_role) (decls st) = true ∧
    first_before (is_grant s3.Read "glue_scripts" "my_glue_role")
                 (is_job_of glue_role) (decls st) = true ∧
    length (jobs st) = 3 ∧
    Forall (λ j, glue.role j.2 = iam.role_arn glue_role) (jobs st)).
Proof.
  run_constructor. cbv zeta. repeat split.
  repeat constructor.
Qed.

(** C9: both buckets are declared with removal policy DESTROY and with
    automatic deletion of their objects. *)
Theorem buckets_destroyed_with_stack construct_id :
  declares construct_id (λ st,
    (fst <$> buckets st) = ["final_data"; "glue_scripts"] ∧
    Forall (λ b, s3.removal_policy b.2 = Some cdk.DESTROY ∧
                 s3.auto_delete_objects b.2 = Some true)
           (buckets st)).
Proof. run_constructor. split; [reflexivity|]. repeat constructor. Qed.

(** A workflow declared without a name attaches nothing. *)
Lemma attached_to_unnamed w t :
  glue.wf_name w = None → attached_to w t = false.
Proof. unfold attached_to. intros ->. by destruct (glue.workflow_name t). Qed.

(** C10: the three jobs share one runtime configuration (pythonshell,
    python 3.9, glue 3.0, capacity 1, timeout 3, the role's ARN) and the
    three triggers all start on creation; but the one workflow is declared
    without a name, so the [workflow_name] every trigger takes from it is
    absent and no trigger is attached to the workflow. *)
Theorem triggers_not_attached_to_workflow construct_id :
  declares construct_id (λ st,
    length (jobs st) = 3 ∧
    Forall (λ j, runtime_of j.2 =
                 {| rt_command := Some "pythonshell";
                    rt_python := Some "3.9";
                    rt_glue := Some "3.0";
                    rt_capacity := Some 1%Z;
                    rt_timeout := Some 3%Z;
                    rt_role := iam.role_arn (iam.mkRole "my_glue_role") |})
           (jobs st) ∧
    length (triggers st) = 3 ∧
    Forall (λ t, glue.start_on_creation t.2 = Some true) (triggers st) ∧
    ∃ w, workflows st = [("ticketmaster_workflow", w)] ∧
         glue.wf_name w = None ∧
         Forall (λ t, glue.workflow_name t.2 = None ∧ attached_to w t.2 = false)
                (triggers st)).
Proof.
  run_constructor. repeat split; try by repeat constructor.
  eexists. split; [reflexivity|]. split; [reflexivity|]. repeat constructor.
Qed.

(** * Further properties of the declared graph *)

Ltac each_declared :=
  repeat first [apply Forall_nil_2 | apply Forall_cons_2]; cbv beta.

Ltac pick_member :=
  first [apply list_elem_of_here | apply list_elem_of_further; pick_member].

(** Every job runs under a role that the stack declares and that the Glue
    service may assume. *)
Theorem jobs_run_under_glue_assumable_role construct_id :
  declares construct_id (λ st,
    Forall (λ j, ∃ r p,
              role_of (glue.role j.2) = Some r ∧
              (r, p) ∈ roles st ∧
              iam.assumed_by p = iam.ServicePrincipal "glue.amazonaws.com")
           (jobs st)).
Proof.
  run_constructor. each_declared;
    (eexists _, _; split; [reflexivity|]; split; [pick_member | reflexivity]).
Qed.

(** No trigger has a dangling job reference: every job a trigger starts and
    every job a trigger waits for is named, and the name is that of a
    declared job. *)
Theorem triggers_reference_declared_jobs construct_id :
  declares construct_id (λ st,
    Forall (λ t, Forall (λ n, ∃ j, n = Some j ∧ j ∈ job_names_of st)
                        (started_by t.2 ++ awaited_by t.2))
           (triggers st)).
Proof.
  run_constructor. each_declared;
    (eexists; split; [reflexivity | pick_member]).
Qed.


(** Only the first declared job is started by the schedule; when every job
    succeeds the jobs run in their declaration order, each success starting
    exactly the next job, and the run stops after the last one whatever
    number of further steps is allowed. *)
Theorem pipeline_runs_jobs_in_order construct_id :
  declares construct_id (λ st,
    ∃ j1 j2 j3,
      job_names_of st = [j1; j2; j3] ∧
      scheduled_jobs st = [j1] ∧
      next_jobs st j1 = [j2] ∧
      next_jobs st j2 = [j3] ∧
      next_jobs st j3 = [] ∧
      ∀ n, run_from st (3 + n) j1 = [j1; j2; j3]).
Proof.
  run_constructor. eexists _, _, _. split; [reflexivity|].
  do 4 (split; [reflexivity|]). intros n. reflexivity.
Qed.

(** The grants cover what the jobs touch and no more: the role of every job
    may read the bucket its script is in but not write to it, and may read
    and write the bucket passed as --my_bucket. *)
Theorem jobs_have_access_to_their_buckets construct_id :
  declares construct_id (λ st,
    Forall (λ j, ∃ r sb db,
              role_of (glue.role j.2) = Some r ∧
              script_bucket j.2 = Some sb ∧
              target_bucket j.2 = Some db ∧
              may_read st sb r = true ∧
              may_write st sb r = false ∧
              may_read st db r = true ∧
              may_write st db r = true)
           (jobs st)).
Proof.
  run_constructor. each_declared;
    (eexists _, _, _; do 3 (split; [reflexivity|]); repeat split).
Qed.

(** Every job's script sits in a declared bucket that blocks all public
    access, and every job's target bucket is a declared bucket with public
    read access: no job reads its code from a publicly readable bucket. *)
Theorem job_scripts_are_private construct_id :
  declares construct_id (λ st,
    Forall (λ j, ∃ sb ps db pd,
              script_bucket j.2 = Some sb ∧
              (sb, ps) ∈ buckets st ∧
              s3.block_public_access ps = Some s3.BLOCK_ALL ∧
              s3.public_read_access ps = None ∧
              target_bucket j.2 = Some db ∧
              (db, pd) ∈ buckets st ∧
              s3.public_read_access pd = Some true)
           (jobs st)).
Proof.
  run_constructor. each_declared;
    (eexists _, _, _, _;
     split; [reflexivity|]; split; [pick_member|];
     do 3 (split; [reflexivity|]); split; [pick_member | reflexivity]).
Qed.

(** Every job and every trigger is named after its construct id; construct
    ids are pairwise distinct, and so are the job names the triggers use. *)
Theorem names_equal_construct_ids construct_id :
  declares construct_id (λ st,
    Forall (λ j, glue.job_name j.2 = Some j.1) (jobs st) ∧
    Forall (λ t, glue.trg_name t.2 = Some t.1) (triggers st) ∧
    NoDup (ids st) ∧
    NoDup (job_names_of st)).
Proof.
  run_constructor. repeat split.
  - each_declared; reflexivity.
  - each_declared; reflexivity.
  - compute_done.
  - compute_done.
Qed.

